(** * VeriLuxe contracts: deployment scripts

    A shallow embedding of [contracts/deploy-js/python-deploy.py] and
    [scripts/generate_keypair.py].  Both scripts are sequential glue around
    the Stellar SDK: the embedding keeps the control flow of the Python
    source (exceptions, [try]/[except], the order of the calls) and takes
    the SDK and the outside world (environment, file system, the Horizon
    server) as explicit parameters. *)

From Stdlib Require Import ZArith String Ascii List Bool Lia.
From stdpp Require Import base strings gmap list.
Import ListNotations.
Local Open Scope string_scope.
Local Open Scope list_scope.

(** ** The fragment of Python the scripts use *)

Module Py.

(** Values found in a Horizon response dictionary. *)
Inductive value : Type :=
| VNone
| VBool (b : bool)
| VInt (n : Z)
| VStr (s : string).

(** Truth value testing, as [if x:] does it. *)
Definition truthy (v : value) : bool :=
  match v with
  | VNone => false
  | VBool b => b
  | VInt n => negb (n =? 0)%Z
  | VStr s => negb (String.eqb s "")
  end.

Abbreviation dict := (gmap string value).
Abbreviation bytes := (list Byte.byte).

(** An f-string before rendering: literal pieces and formatted values, in
    order.  The rendering of a value ([str(x)]) is left to the reader. *)
Inductive frag : Type :=
| Lit (s : string)
| Fmt (v : value)
| FmtDict (d : dict).

Abbreviation text := (list frag).

(** The exception classes that occur.  [SystemExit] derives from
    [BaseException] only, every other one from [Exception]. *)
Inductive exc_class : Type :=
| Exception
| ValueError
| TypeError
| KeyError
| FileNotFoundError
| RequestException
| SystemExit.

Definition is_Exception (c : exc_class) : bool :=
  match c with
  | SystemExit => false
  | _ => true
  end.

(** An exception object: its class and [str(e)]. *)
Record exc : Type := mk_exc { exc_cls : exc_class; exc_str : text }.

Inductive outcome (A : Type) : Type :=
| Return (a : A)
| Raise (e : exc).
Arguments Return {A} a.
Arguments Raise {A} e.

Definition returned {A} (o : outcome A) : bool :=
  match o with Return _ => true | Raise _ => false end.

(** [s * n] on strings. *)
Fixpoint str_mul (s : string) (n : nat) : string :=
  match n with
  | O => ""
  | S n' => s ++ str_mul s n'
  end.

(** *** [bytes.hex()] and [bytes.fromhex()] *)

Definition hex_char (n : N) : ascii :=
  match n with
  | 0 => "0" | 1 => "1" | 2 => "2" | 3 => "3" | 4 => "4" | 5 => "5"
  | 6 => "6" | 7 => "7" | 8 => "8" | 9 => "9" | 10 => "a" | 11 => "b"
  | 12 => "c" | 13 => "d" | 14 => "e" | _ => "f"
  end%N%char.

Fixpoint hex (b : bytes) : string :=
  match b with
  | [] => ""
  | x :: b' =>
      let n := Byte.to_N x in
      String (hex_char (n / 16)) (String (hex_char (n mod 16)) (hex b'))
  end.

Definition hex_value (c : ascii) : option N :=
  let n := N_of_ascii c in
  if ((48 <=? n) && (n <=? 57))%N then Some (n - 48)%N
  else if ((97 <=? n) && (n <=? 102))%N then Some (n - 87)%N
  else if ((65 <=? n) && (n <=? 70))%N then Some (n - 55)%N
  else None.

(** ASCII whitespace, which [fromhex] skips between bytes. *)
Definition is_space (c : ascii) : bool :=
  let n := N_of_ascii c in
  ((n =? 32) || ((9 <=? n) && (n <=? 13)))%N.

Definition byte_of_nibbles (hi lo : N) : Byte.byte :=
  match Byte.of_N (16 * hi + lo) with
  | Some b => b
  | None => Byte.x00
  end.

Fixpoint fromhex_str (s : string) : option bytes :=
  match s with
  | EmptyString => Some []
  | String c s' =>
      if is_space c then fromhex_str s'
      else
        match hex_value c, s' with
        | Some hi, String d s'' =>
            match hex_value d with
            | Some lo => cons (byte_of_nibbles hi lo) <$> fromhex_str s''
            | None => None
            end
        | _, _ => None
        end
  end.

(** [bytes.fromhex(x)]: a [TypeError] unless [x] is a [str], a
    [ValueError] unless it is pairs of hexadecimal digits. *)
Definition fromhex (v : value) : outcome bytes :=
  match v with
  | VStr s =>
      match fromhex_str s with
      | Some b => Return b
      | None =>
          Raise (mk_exc ValueError
                   [Lit "non-hexadecimal number found in fromhex() arg"])
      end
  | _ => Raise (mk_exc TypeError [Lit "fromhex() argument must be str"])
  end.

(** [d[k]]: a [KeyError] whose [str] is the [repr] of the key. *)
Definition getitem (d : dict) (k : string) : outcome value :=
  match d !! k with
  | Some v => Return v
  | None => Raise (mk_exc KeyError [Lit "'"; Lit k; Lit "'"])
  end.

End Py.
Import Py.

(** ** The Stellar SDK, as far as the scripts see it *)

Module Stellar.

(** A [Keypair] object: the attributes the scripts read. *)
Record Keypair : Type := mk_keypair {
  public_key : string;
  raw_secret_key : bytes;
  secret : string
}.

(** An [Account] object.  [account_obj] is the identity of the Python
    object: every [load_account] call allocates a new one. *)
Record Account : Type := mk_account {
  account_obj : nat;
  account_id : string;
  sequence : Z
}.

Inductive operation : Type :=
| UploadContractWasm (wasm : bytes)
| CreateContract (wasm_hash : bytes) (address : string)
| InvokeContract (contract_address : value) (function_name : string)
    (parameters : list string).

(** [TransactionBuilder(...)] and what its fluent calls record. *)
Record TransactionBuilder : Type := mk_builder {
  tb_source_account : Account;
  tb_network_passphrase : string;
  tb_base_fee : Z;
  tb_operations : list operation;
  tb_timeout : option Z
}.

Definition new_builder (source : Account) (passphrase : string) (fee : Z)
  : TransactionBuilder :=
  mk_builder source passphrase fee [] None.

Definition add_operation (op : operation) (tb : TransactionBuilder)
  : TransactionBuilder :=
  mk_builder (tb_source_account tb) (tb_network_passphrase tb)
    (tb_base_fee tb) (tb_operations tb ++ [op]) (tb_timeout tb).

Definition set_timeout (t : Z) (tb : TransactionBuilder) : TransactionBuilder :=
  mk_builder (tb_source_account tb) (tb_network_passphrase tb)
    (tb_base_fee tb) (tb_operations tb) (Some t).

(** A built transaction envelope, with the public keys of its signers. *)
Record Transaction : Type := mk_tx {
  tx_source_account : Account;
  tx_network_passphrase : string;
  tx_base_fee : Z;
  tx_operations : list operation;
  tx_timeout : option Z;
  tx_signers : list string
}.

Definition build (tb : TransactionBuilder) : Transaction :=
  mk_tx (tb_source_account tb) (tb_network_passphrase tb) (tb_base_fee tb)
    (tb_operations tb) (tb_timeout tb) [].

Definition sign (kp : Keypair) (tx : Transaction) : Transaction :=
  mk_tx (tx_source_account tx) (tx_network_passphrase tx) (tx_base_fee tx)
    (tx_operations tx) (tx_timeout tx) (tx_signers tx ++ [public_key kp]).

(** What the SDK computes and the repository does not define: the two
    network passphrase constants and the two keypair parsers. *)
Class Sdk : Type := {
  TESTNET_NETWORK_PASSPHRASE : string;
  FUTURENET_NETWORK_PASSPHRASE : string;
  from_secret : string -> outcome Keypair;
  from_mnemonic_phrase : string -> outcome Keypair
}.

End Stellar.
Import Stellar.

(** ** The world the scripts run in *)

(** A call on a Horizon [Server] object and its result. *)
Inductive net_call : Type :=
| LoadAccount (url : string) (account : string) (r : outcome Account)
| SubmitTransaction (url : string) (tx : Transaction) (r : outcome dict).

(** The Horizon server, as a test double would script it: the result of a
    call may depend on every call made before it. *)
Record horizon_mock : Type := {
  on_load_account : list net_call -> string -> string -> outcome Z;
  on_submit_transaction : list net_call -> string -> Transaction -> outcome dict
}.

Record world : Type := mk_world {
  environ : gmap string string;
  filesystem : gmap string bytes;
  horizon : horizon_mock;
  net_history : list net_call;
  next_obj : nat;
  random_keypairs : nat -> Keypair;
  random_count : nat
}.

(** What a run does that can be observed from outside, in order. *)
Inductive event : Type :=
| Print (line : text)
| Getenv (name : string)
| PathExists (path : string)
| ReadFile (path : string)
| Net (c : net_call).

Fixpoint net_calls (evs : list event) : list net_call :=
  match evs with
  | [] => []
  | Net c :: evs' => c :: net_calls evs'
  | _ :: evs' => net_calls evs'
  end.

Fixpoint printed (evs : list event) : list text :=
  match evs with
  | [] => []
  | Print l :: evs' => l :: printed evs'
  | _ :: evs' => printed evs'
  end.

(** ** Computations: state, events and exceptions *)

Record result (A : Type) : Type := mk_result {
  out : outcome A;
  events : list event;
  after : world
}.
Arguments mk_result {A} out events after.
Arguments out {A} r.
Arguments events {A} r.
Arguments after {A} r.

Definition M (A : Type) : Type := world -> result A.

Definition ret {A} (a : A) : M A := fun w => mk_result (Return a) [] w.

Definition raise {A} (e : exc) : M A := fun w => mk_result (Raise e) [] w.

Definition bind {A B} (m : M A) (k : A -> M B) : M B :=
  fun w =>
    match m w with
    | mk_result (Return a) evs w1 =>
        match k a w1 with
        | mk_result o evs' w2 => mk_result o (evs ++ evs') w2
        end
    | mk_result (Raise e) evs w1 => mk_result (Raise e) evs w1
    end.

Notation "x <- m ;; k" := (bind m (fun x => k))
  (at level 100, m at next level, right associativity).
Notation "m ;;; k" := (bind m (fun _ => k))
  (at level 100, right associativity).

(** An SDK or builtin call that may raise. *)
Definition lift {A} (o : outcome A) : M A :=
  fun w => mk_result o [] w.

Definition emit (e : event) : M unit :=
  fun w => mk_result (Return tt) [e] w.

Definition print (line : text) : M unit := emit (Print line).

(** [try: body / except Exception as e: handler e]. *)
Definition try_except {A} (body : M A) (handler : exc -> M A) : M A :=
  fun w =>
    match body w with
    | mk_result (Return a) evs w1 => mk_result (Return a) evs w1
    | mk_result (Raise e) evs w1 =>
        if is_Exception (exc_cls e) then
          match handler e w1 with
          | mk_result o evs' w2 => mk_result o (evs ++ evs') w2
          end
        else mk_result (Raise e) evs w1
    end.

(** [os.getenv(name)]. *)
Definition getenv (name : string) : M (option string) :=
  fun w => mk_result (Return (environ w !! name)) [Getenv name] w.

(** [os.path.exists(path)]. *)
Definition path_exists (path : string) : M bool :=
  fun w =>
    mk_result (Return (bool_decide (is_Some (filesystem w !! path))))
      [PathExists path] w.

(** [open(path, 'rb').read()]. *)
Definition read_file (path : string) : M bytes :=
  fun w =>
    match filesystem w !! path with
    | Some b => mk_result (Return b) [ReadFile path] w
    | None =>
        mk_result
          (Raise (mk_exc FileNotFoundError
                    [Lit "No such file or directory: "; Lit path]))
          [ReadFile path] w
    end.

Definition record_call (c : net_call) (obj : nat) (w : world) : world :=
  mk_world (environ w) (filesystem w) (horizon w) (net_history w ++ [c])
    obj (random_keypairs w) (random_count w).

(** [server.load_account(account)] on the server at [url]. *)
Definition load_account (url account : string) : M Account :=
  fun w =>
    match on_load_account (horizon w) (net_history w) url account with
    | Return seq =>
        let a := mk_account (next_obj w) account seq in
        let c := LoadAccount url account (Return a) in
        mk_result (Return a) [Net c] (record_call c (S (next_obj w)) w)
    | Raise e =>
        let c := LoadAccount url account (Raise e) in
        mk_result (Raise e) [Net c] (record_call c (next_obj w) w)
    end.

(** [server.submit_transaction(tx)] on the server at [url]. *)
Definition submit_transaction (url : string) (tx : Transaction) : M dict :=
  fun w =>
    let r := on_submit_transaction (horizon w) (net_history w) url tx in
    let c := SubmitTransaction url tx r in
    mk_result r [Net c] (record_call c (next_obj w) w).

(** [Keypair.random()]. *)
Definition keypair_random : M Keypair :=
  fun w =>
    mk_result (Return (random_keypairs w (random_count w))) []
      (mk_world (environ w) (filesystem w) (horizon w) (net_history w)
         (next_obj w) (random_keypairs w) (S (random_count w))).

(** [async def f(...)]: calling [f] makes a coroutine object and runs
    nothing; [await] runs the body.  The bodies here never suspend. *)
Inductive coroutine (A : Type) : Type :=
| Coro (body : M A).
Arguments Coro {A} body.

Definition await {A} (c : coroutine A) : M A :=
  match c with Coro body => body end.

(** What a variable assigned from a call of [deploy_contract] may hold: the
    dictionary, had the call been awaited, or the coroutine object. *)
Inductive object : Type :=
| ODict (d : dict)
| OCoroutine (c : coroutine dict).

(** [o[k]]: a dictionary is looked up; a coroutine object has no
    [__getitem__]. *)
Definition subscript (o : object) (k : string) : M value :=
  match o with
  | ODict d => lift (getitem d k)
  | OCoroutine _ =>
      raise (mk_exc TypeError [Lit "'coroutine' object is not subscriptable"])
  end.

(** [sys.exit(code)]. *)
Definition sys_exit {A} (code : Z) : M A :=
  raise (mk_exc SystemExit [Fmt (VInt code)]).

(** What [sys.exit(1)] raises. *)
Definition exit_1 : exc := mk_exc SystemExit [Fmt (VInt 1)].

(** [sys.argv[1] if len(sys.argv) > 1 else 'testnet']. *)
Definition network_argument (argv : list string) : string :=
  match argv with
  | _ :: a :: _ => a
  | _ => "testnet"
  end.

(** The status the interpreter exits with when the script's top level ends
    with [o]. *)
Definition exit_status (o : outcome unit) : Z :=
  match o with
  | Return _ => 0
  | Raise e =>
      match exc_cls e, exc_str e with
      | SystemExit, [] => 0
      | SystemExit, [Fmt (VInt code)] => code
      | _, _ => 1
      end
  end.

(** ** python-deploy.py *)

Section Deployer.
Context `{Sdk}.

Record network_profile : Type := mk_profile {
  horizon_url : string;
  soroban_url : string;
  network_passphrase : string
}.

(** The attributes of a [VeriLuxeDeployer] object.  The two server objects
    are the URLs they were made from. *)
Record Deployer : Type := mk_deployer {
  network : string;
  profile : network_profile;
  admin_keypair : Keypair
}.

Definition setup_network (network : string) : M network_profile :=
  if String.eqb network "testnet" then
    ret (mk_profile "https://horizon-testnet.stellar.org"
           "https://soroban-testnet.stellar.org"
           TESTNET_NETWORK_PASSPHRASE)
  else if String.eqb network "futurenet" then
    ret (mk_profile "https://horizon-futurenet.stellar.org"
           "https://rpc-futurenet.stellar.org:443"
           FUTURENET_NETWORK_PASSPHRASE)
  else
    raise (mk_exc ValueError [Lit "Unsupported network: "; Fmt (VStr network)]).

Definition mnemonic : string :=
  "coin idle bus total sense awful picture dial stick between erode expose stairs they swing account august indicate cruel nasty inherit vocal veteran deal".

(** [not x], for an [x] that is [None] or a [str]. *)
Definition py_not (x : option string) : bool :=
  match x with
  | None => true
  | Some s => negb (truthy (VStr s))
  end.

Definition setup_account : M Keypair :=
  secret_key <- getenv "ADMIN_SECRET_KEY" ;;
  if py_not secret_key then
    kp <- lift (from_mnemonic_phrase mnemonic) ;;
    print [Lit "🔑 Using generated account from mnemonic"] ;;;
    ret kp
  else
    kp <- lift (from_secret (default "" secret_key)) ;;
    print [Lit "🔑 Using account from environment variable"] ;;;
    ret kp.

(** [VeriLuxeDeployer(network=network)], that is [__init__]. *)
Definition VeriLuxeDeployer (network : string) : M Deployer :=
  p <- setup_network network ;;
  kp <- setup_account ;;
  print [Lit "🚀 VeriLuxe Python Deployer"] ;;;
  print [Lit "📡 Network: "; Fmt (VStr network)] ;;;
  print [Lit "👤 Admin: "; Fmt (VStr (public_key kp))] ;;;
  ret (mk_deployer network p kp).

Definition default_wasm_path : string :=
  "../contracts/target/wasm32v1-none/release/fashion_auth_contract.wasm".

Definition load_wasm (wasm_path : option string) : M bytes :=
  let wasm_path :=
    if py_not wasm_path then default_wasm_path else default "" wasm_path in
  ex <- path_exists wasm_path ;;
  if negb ex then
    raise (mk_exc FileNotFoundError
             [Lit "WASM file not found: "; Fmt (VStr wasm_path)])
  else
    wasm_data <- read_file wasm_path ;;
    print [Lit "📦 Loaded WASM file (";
           Fmt (VInt (Z.of_nat (length wasm_data))); Lit " bytes)"] ;;;
    ret wasm_data.

(** The transaction every phase builds: one operation, base fee 100000,
    timeout 300, signed by the administrator. *)
Definition signed_tx (self : Deployer) (account : Account) (op : operation)
  : Transaction :=
  sign (admin_keypair self)
    (build
       (set_timeout 300
          (add_operation op
             (new_builder account (network_passphrase (profile self)) 100000)))).

Definition initialize_contract (self : Deployer) (contract_address : value)
  : coroutine unit :=
  Coro
    (try_except
       (account <- load_account (horizon_url (profile self))
                     (public_key (admin_keypair self)) ;;
        let init_op :=
          InvokeContract contract_address "init"
            [public_key (admin_keypair self)] in
        let init_tx := signed_tx self account init_op in
        init_response <- submit_transaction (horizon_url (profile self)) init_tx ;;
        ok <- lift (getitem init_response "successful") ;;
        if truthy ok then
          print [Lit "✅ Contract initialized successfully"]
        else
          print [Lit "⚠️ Contract initialization may have failed: ";
                 FmtDict init_response])
       (fun e =>
          print (Lit "❌ Initialization failed: " :: exc_str e) ;;;
          raise e)).

Definition deploy_contract (self : Deployer) : coroutine dict :=
  Coro
    (try_except
       (print [Lit "\n📋 Starting contract deployment..."] ;;;
        wasm_data <- load_wasm None ;;
        account <- load_account (horizon_url (profile self))
                     (public_key (admin_keypair self)) ;;
        print [Lit "💰 Account loaded with sequence: ";
               Fmt (VInt (sequence account))] ;;;
        print [Lit "\n📤 Uploading contract WASM..."] ;;;
        let upload_op := UploadContractWasm wasm_data in
        let upload_tx := signed_tx self account upload_op in
        upload_response <-
          submit_transaction (horizon_url (profile self)) upload_tx ;;
        ok <- lift (getitem upload_response "successful") ;;
        contract_hash <-
          (if truthy ok then
             print [Lit "✅ Contract WASM uploaded successfully"] ;;;
             contract_hash <- lift (getitem upload_response "hash") ;;
             print [Lit "🔗 Contract hash: "; Fmt contract_hash] ;;;
             ret contract_hash
           else
             raise (mk_exc Exception
                      [Lit "Upload failed: "; FmtDict upload_response])) ;;
        print [Lit "\n🚀 Creating contract instance..."] ;;;
        account <- load_account (horizon_url (profile self))
                     (public_key (admin_keypair self)) ;;
        wasm_hash <- lift (fromhex contract_hash) ;;
        let create_op :=
          CreateContract wasm_hash (public_key (admin_keypair self)) in
        let create_tx := signed_tx self account create_op in
        create_response <-
          submit_transaction (horizon_url (profile self)) create_tx ;;
        ok <- lift (getitem create_response "successful") ;;
        contract_address <-
          (if truthy ok then
             print [Lit "✅ Contract instance created successfully"] ;;;
             contract_address <-
               lift (getitem create_response "contract_address") ;;
             print [Lit "🎯 Contract address: "; Fmt contract_address] ;;;
             ret contract_address
           else
             raise (mk_exc Exception
                      [Lit "Contract creation failed: ";
                       FmtDict create_response])) ;;
        print [Lit "\n⚙️ Initializing contract..."] ;;;
        await (initialize_contract self contract_address) ;;;
        ret ({[ "contract_hash" := contract_hash;
                "contract_address" := contract_address;
                "admin_public_key" := VStr (public_key (admin_keypair self));
                "network" := VStr (network self) ]} : dict))
       (fun e =>
          print (Lit "❌ Deployment failed: " :: exc_str e) ;;;
          raise e)).

Definition main (argv : list string) : M unit :=
  try_except
    (let network := network_argument argv in
     deployer <- VeriLuxeDeployer network ;;
     let result := OCoroutine (deploy_contract deployer) in
     print [Lit "\n🎉 Deployment Summary:"] ;;;
     print [Lit (str_mul "━" 50)] ;;;
     h <- subscript result "contract_hash" ;;
     print [Lit "📋 Contract Hash: "; Fmt h] ;;;
     a <- subscript result "contract_address" ;;
     print [Lit "🎯 Contract Address: "; Fmt a] ;;;
     k <- subscript result "admin_public_key" ;;
     print [Lit "👤 Admin Address: "; Fmt k] ;;;
     n <- subscript result "network" ;;
     print [Lit "🌍 Network: "; Fmt n] ;;;
     print [Lit (str_mul "━" 50)] ;;;
     print [Lit "\n✅ VeriLuxe Fashion Authenticity Contract deployed!"] ;;;
     print [Lit "🔗 Ready for frontend integration."])
    (fun e =>
       print (Lit "\n💥 Deployment failed: " :: exc_str e) ;;;
       sys_exit 1).

End Deployer.

(** ** generate_keypair.py *)

Definition dquote : string := String (ascii_of_nat 34) "".

Definition generate_keypair : M unit :=
  keypair <- keypair_random ;;
  print [Lit "=== NUEVO KEYPAIR GENERADO ==="] ;;;
  print [Lit "Public Key (Address): "; Fmt (VStr (public_key keypair))] ;;;
  print [Lit "Secret Key (Hex): ";
         Fmt (VStr (hex (raw_secret_key keypair)))] ;;;
  print [Lit "Secret Key (Stellar): "; Fmt (VStr (secret keypair))] ;;;
  print [Lit ""] ;;;
  print [Lit "IMPORTANTE:"] ;;;
  print [Lit ("- Usa el " ++ dquote ++ "Secret Key (Hex)" ++ dquote
              ++ " para ADMIN_SECRET_KEY en tu .env")] ;;;
  print [Lit ("- Usa el " ++ dquote ++ "Public Key (Address)" ++ dquote
              ++ " para inicializar el contrato")] ;;;
  print [Lit "- NUNCA compartas el secret key - guárdalo de forma segura"] ;;;
  print [Lit ""] ;;;
  print [Lit "Para usar en testnet, financia la cuenta en:"] ;;;
  print [Lit "https://laboratory.stellar.org/#account-creator?network=test"].

(** ** Test doubles

    A scripted Horizon server in the manner of a mock with a list of side
    effects, an SDK whose secret parser accepts only a 56-character string
    that starts with [S], and a few worlds built from them. *)

Module Mock.

Definition is_load (c : net_call) : bool :=
  match c with LoadAccount _ _ _ => true | _ => false end.

Definition is_submit (c : net_call) : bool :=
  match c with SubmitTransaction _ _ _ => true | _ => false end.

Definition exhausted {A} : outcome A :=
  Raise (mk_exc RequestException [Lit "no response scripted"]).

(** The n-th [load_account] call gets the n-th entry of [loads], the n-th
    [submit_transaction] call the n-th entry of [submits]. *)
Definition scripted (loads : list (outcome Z)) (submits : list (outcome dict))
  : horizon_mock :=
  {| on_load_account h _ _ :=
       nth (length (filter is_load h)) loads exhausted;
     on_submit_transaction h _ _ :=
       nth (length (filter is_submit h)) submits exhausted |}.

Definition admin : Keypair :=
  mk_keypair "GADMIN" [Byte.x01; Byte.xab] "SADMIN".

Definition starts_with_S (s : string) : bool :=
  match s with
  | String c _ => Ascii.eqb c "S"
  | EmptyString => false
  end.

#[export] Instance sdk : Sdk :=
  {| TESTNET_NETWORK_PASSPHRASE := "Test SDF Network ; September 2015";
     FUTURENET_NETWORK_PASSPHRASE := "Test SDF Future Network ; October 2022";
     from_secret s :=
       if starts_with_S s && (String.length s =? 56)%nat then
         Return (mk_keypair ("G" ++ s) [Byte.x02] s)
       else Raise (mk_exc ValueError [Lit "Invalid Ed25519 Secret Seed: "; Lit s]);
     from_mnemonic_phrase m :=
       if String.eqb m mnemonic then Return admin
       else Raise (mk_exc ValueError [Lit "Invalid mnemonic"]) |}.

Definition wasm : bytes := [Byte.x00; Byte.x61; Byte.x73; Byte.x6d].

Definition mk (env : gmap string string) (files : gmap string bytes)
  (h : horizon_mock) : world :=
  mk_world env files h [] 0 (fun _ => admin) 0.

Definition with_wasm : gmap string bytes := {[ default_wasm_path := wasm ]}.

Definition upload_ok : dict :=
  {[ "successful" := VBool true; "hash" := VStr "00ff" ]}.

Definition create_ok : dict :=
  {[ "successful" := VBool true; "contract_address" := VStr "CCONTRACT" ]}.

Definition init_ok : dict := {[ "successful" := VBool true ]}.

Definition failed : dict := {[ "successful" := VBool false ]}.

Definition timeout : exc := mk_exc RequestException [Lit "timed out"].

Definition loads3 : list (outcome Z) := [Return 7; Return 8; Return 9]%Z.

(** Every call succeeds. *)
Definition happy : world :=
  mk ∅ with_wasm
    (scripted loads3 [Return upload_ok; Return create_ok; Return init_ok]).

(** The contract binary is missing. *)
Definition no_wasm : world :=
  mk ∅ ∅
    (scripted loads3 [Return upload_ok; Return create_ok; Return init_ok]).

(** The upload is answered with a non-success status. *)
Definition upload_rejected : world :=
  mk ∅ with_wasm
    (scripted loads3 [Return failed; Return create_ok; Return init_ok]).

(** The initialization is answered with a non-success status. *)
Definition init_rejected : world :=
  mk ∅ with_wasm
    (scripted loads3 [Return upload_ok; Return create_ok; Return failed]).

(** The submission of the initialization raises. *)
Definition init_raises : world :=
  mk ∅ with_wasm
    (scripted loads3 [Return upload_ok; Return create_ok; Raise timeout]).

(** [ADMIN_SECRET_KEY] is set to the empty string. *)
Definition empty_secret : world :=
  mk {[ "ADMIN_SECRET_KEY" := "" ]} with_wasm (scripted [] []).

Definition native_secret : string :=
  "SAAAAAAAAAAAAAAAAAAAAAAAAAAAAAAAAAAAAAAAAAAAAAAAAAAAAAAA".

(** [ADMIN_SECRET_KEY] holds the hexadecimal form of [admin]'s raw key. *)
Definition hex_secret : world :=
  mk {[ "ADMIN_SECRET_KEY" := hex (raw_secret_key admin) ]} with_wasm
    (scripted [] []).

(** [ADMIN_SECRET_KEY] holds a secret in the SDK's string encoding. *)
Definition with_secret : world :=
  mk {[ "ADMIN_SECRET_KEY" := native_secret ]} with_wasm (scripted [] []).

(** The instantiation is answered with a non-success status. *)
Definition create_rejected : world :=
  mk ∅ with_wasm
    (scripted loads3 [Return upload_ok; Return failed; Return init_ok]).

(** The first [load_account] raises. *)
Definition load_fails : world :=
  mk ∅ with_wasm (scripted [Raise timeout] []).

(** The upload is answered with an empty response. *)
Definition no_status : world :=
  mk ∅ with_wasm (scripted loads3 [Return (∅ : dict)]).

(** The upload is answered with a success that carries no hash. *)
Definition upload_no_hash : world :=
  mk ∅ with_wasm (scripted loads3 [Return init_ok]).

(** The instantiation is answered with a success that carries no address. *)
Definition create_no_address : world :=
  mk ∅ with_wasm (scripted loads3 [Return upload_ok; Return init_ok]).

Definition bad_hash : dict :=
  {[ "successful" := VBool true; "hash" := VStr "xyz" ]}.

(** The upload is answered with a hash that is not hexadecimal. *)
Definition upload_bad_hash : world :=
  mk ∅ with_wasm (scripted loads3 [Return bad_hash]).


Definition testnet_profile : network_profile :=
  mk_profile "https://horizon-testnet.stellar.org"
    "https://soroban-testnet.stellar.org" TESTNET_NETWORK_PASSPHRASE.

Definition deployer : Deployer := mk_deployer "testnet" testnet_profile admin.


End Mock.

(** ** What the claims speak of *)

#[global] Instance Account_eq_dec : EqDecision Account.
Proof. solve_decision. Defined.

(** Every submitted transaction has as its source the account object that
    the call just before it loaded; [loaded] is that object while it is
    still unused. *)
Fixpoint fresh_sources (loaded : option Account) (calls : list net_call)
  : bool :=
  match calls with
  | [] => true
  | LoadAccount _ _ (Return a) :: cs => fresh_sources (Some a) cs
  | LoadAccount _ _ (Raise _) :: cs => fresh_sources None cs
  | SubmitTransaction _ tx _ :: cs =>
      match loaded with
      | Some a => bool_decide (tx_source_account tx = a) && fresh_sources None cs
      | None => false
      end
  end.

Fixpoint loaded_accounts (calls : list net_call) : list Account :=
  match calls with
  | [] => []
  | LoadAccount _ _ (Return a) :: cs => a :: loaded_accounts cs
  | _ :: cs => loaded_accounts cs
  end.

Fixpoint submitted_sources (calls : list net_call) : list Account :=
  match calls with
  | [] => []
  | SubmitTransaction _ tx _ :: cs => tx_source_account tx :: submitted_sources cs
  | _ :: cs => submitted_sources cs
  end.

(** The dictionary [deploy_contract] returns. *)
Definition deployment_record (contract_hash contract_address : value)
  (admin_public_key network : string) : dict :=
  {[ "contract_hash" := contract_hash;
     "contract_address" := contract_address;
     "admin_public_key" := VStr admin_public_key;
     "network" := VStr network ]}.

(** ** Further notions about runs *)

(** The exception a call on the server ended with, if it raised. *)
Definition call_raised (c : net_call) : option exc :=
  match c with
  | LoadAccount _ _ (Raise e) => Some e
  | SubmitTransaction _ _ (Raise e) => Some e
  | _ => None
  end.

Definition is_load_call (c : net_call) : bool :=
  match c with
  | LoadAccount _ _ _ => true
  | SubmitTransaction _ _ _ => false
  end.

(** A transaction as every phase of the deployer makes it: one operation,
    base fee 100000, timeout 300, the profile's passphrase, the
    administrator's account as source and the administrator as only signer. *)
Definition admin_tx (self : Deployer) (tx : Transaction) : Prop :=
  tx_base_fee tx = 100000%Z
  /\ tx_timeout tx = Some 300%Z
  /\ length (tx_operations tx) = 1
  /\ tx_signers tx = [public_key (admin_keypair self)]
  /\ tx_network_passphrase tx = network_passphrase (profile self)
  /\ account_id (tx_source_account tx) = public_key (admin_keypair self).

(** A call on the Horizon server of the profile, for the administrator. *)
Definition admin_call (self : Deployer) (c : net_call) : Prop :=
  match c with
  | LoadAccount url account _ =>
      url = horizon_url (profile self)
      /\ account = public_key (admin_keypair self)
  | SubmitTransaction url tx _ =>
      url = horizon_url (profile self) /\ admin_tx self tx
  end.

(** [KeyError(k)]. *)
Definition key_error (k : string) : exc :=
  mk_exc KeyError [Lit "'"; Lit k; Lit "'"].

(** * Reasoning about runs *)

(** [wp m w Q]: the run of [m] from [w] ends in a result that satisfies [Q]. *)
Definition wp {A} (m : M A) (w : world) (Q : result A -> Prop) : Prop :=
  Q (m w).

(** What the continuation of a [bind] has to establish. *)
Definition then_run {A B} (k : A -> M B) (Q : result B -> Prop)
  (r : result A) : Prop :=
  match out r with
  | Return a =>
      wp (k a) (after r)
        (fun r' => Q (mk_result (out r') (events r ++ events r') (after r')))
  | Raise e => Q (mk_result (Raise e) (events r) (after r))
  end.

(** What the handler of a [try_except] has to establish. *)
Definition then_handle {A} (h : exc -> M A) (Q : result A -> Prop)
  (r : result A) : Prop :=
  match out r with
  | Return a => Q r
  | Raise e =>
      if is_Exception (exc_cls e) then
        wp (h e) (after r)
          (fun r' => Q (mk_result (out r') (events r ++ events r') (after r')))
      else Q r
  end.

(** * Theorems *)

(** ** Builtins *)

Example hex_ex : hex [Byte.x00; Byte.xff; Byte.x1a] = "00ff1a".
Proof. reflexivity. Qed.

Example fromhex_ex :
  fromhex (VStr "00 FF1a") = Return [Byte.x00; Byte.xff; Byte.x1a].
Proof. reflexivity. Qed.

Example fromhex_odd : returned (fromhex (VStr "abc")) = false.
Proof. reflexivity. Qed.

Example fromhex_split : returned (fromhex (VStr "a b")) = false.
Proof. reflexivity. Qed.

(** [bytes.fromhex] undoes [bytes.hex]. *)
Lemma fromhex_hex b : fromhex (VStr (hex b)) = Return b.
Proof.
  unfold fromhex.
  assert (Hb : fromhex_str (hex b) = Some b); [|by rewrite Hb].
  induction b as [|x b IH]; [done|].
  cbn [hex]. destruct x; cbn; by rewrite IH.
Qed.

(** ** Rules for runs *)

Section Rules.
Context {A B : Type}.

Lemma wp_bind (m : M A) (k : A -> M B) w Q :
  wp m w (then_run k Q) -> wp (bind m k) w Q.
Proof.
  unfold wp, then_run, bind.
  destruct (m w) as [[a|e] evs w1]; simpl; [|done].
  unfold wp. by destruct (k a w1).
Qed.

Lemma wp_try (body : M A) (h : exc -> M A) w Q :
  wp body w (then_handle h Q) -> wp (try_except body h) w Q.
Proof.
  unfold wp, then_handle, try_except.
  destruct (body w) as [[a|e] evs w1]; simpl; [done|].
  destruct (is_Exception (exc_cls e)); [|done].
  unfold wp. by destruct (h e w1).
Qed.

Lemma wp_ret (a : A) w (Q : result A -> Prop) :
  Q (mk_result (Return a) [] w) -> wp (ret a) w Q.
Proof. done. Qed.

Lemma wp_raise e w (Q : result A -> Prop) :
  Q (mk_result (Raise e) [] w) -> wp (raise e) w Q.
Proof. done. Qed.

Lemma wp_lift (o : outcome A) w (Q : result A -> Prop) :
  Q (mk_result o [] w) -> wp (lift o) w Q.
Proof. done. Qed.

End Rules.

Lemma wp_print line w (Q : result unit -> Prop) :
  Q (mk_result (Return tt) [Print line] w) -> wp (print line) w Q.
Proof. done. Qed.

Lemma wp_getenv name w (Q : result (option string) -> Prop) :
  Q (mk_result (Return (environ w !! name)) [Getenv name] w) ->
  wp (getenv name) w Q.
Proof. done. Qed.

(** The two ways a [load_account] call ends, whatever the server answers. *)
Lemma wp_load_account url account w (Q : result Account -> Prop) :
  (forall seq,
      Q (mk_result (Return (mk_account (next_obj w) account seq))
           [Net (LoadAccount url account
                   (Return (mk_account (next_obj w) account seq)))]
           (record_call
              (LoadAccount url account
                 (Return (mk_account (next_obj w) account seq)))
              (S (next_obj w)) w))) ->
  (forall e,
      Q (mk_result (Raise e) [Net (LoadAccount url account (Raise e))]
           (record_call (LoadAccount url account (Raise e)) (next_obj w) w))) ->
  wp (load_account url account) w Q.
Proof.
  intros Hok Herr. unfold wp, load_account.
  destruct (on_load_account _ _ _ _) as [seq|e]; auto.
Qed.

Lemma wp_submit_transaction url tx w (Q : result dict -> Prop) :
  (forall r,
      Q (mk_result r [Net (SubmitTransaction url tx r)]
           (record_call (SubmitTransaction url tx r) (next_obj w) w))) ->
  wp (submit_transaction url tx) w Q.
Proof. intros HQ. unfold wp, submit_transaction. by apply HQ. Qed.

(** The two ways [load_wasm] ends when it is called without a path. *)
Lemma wp_load_wasm w (Q : result bytes -> Prop) :
  (filesystem w !! default_wasm_path = None ->
   Q (mk_result
        (Raise (mk_exc FileNotFoundError
                  [Lit "WASM file not found: "; Fmt (VStr default_wasm_path)]))
        [PathExists default_wasm_path] w)) ->
  (forall b,
      filesystem w !! default_wasm_path = Some b ->
      Q (mk_result (Return b)
           [PathExists default_wasm_path; ReadFile default_wasm_path;
            Print [Lit "📦 Loaded WASM file (";
                   Fmt (VInt (Z.of_nat (length b))); Lit " bytes)"]] w)) ->
  wp (load_wasm None) w Q.
Proof.
  intros Hno Hyes. unfold wp, load_wasm, bind, path_exists, read_file. simpl.
  destruct (filesystem w !! default_wasm_path) as [b|] eqn:E.
  - rewrite bool_decide_eq_true_2 by eauto. simpl. rewrite E. simpl. by apply Hyes.
  - rewrite bool_decide_eq_false_2 by (intros [? ?]; discriminate). simpl.
    by apply Hno.
Qed.

Lemma wp_getitem d k w (Q : result value -> Prop) :
  (forall v, d !! k = Some v -> Q (mk_result (Return v) [] w)) ->
  (d !! k = None ->
   Q (mk_result (Raise (mk_exc KeyError [Lit "'"; Lit k; Lit "'"])) [] w)) ->
  wp (lift (getitem d k)) w Q.
Proof.
  intros Hsome Hnone. unfold wp, lift, getitem.
  destruct (d !! k) as [v|] eqn:E; auto.
Qed.

Lemma fromhex_Exception v e :
  fromhex v = Raise e -> is_Exception (exc_cls e) = true.
Proof.
  unfold fromhex. destruct v; try (intros [= <-]; reflexivity).
  destruct (fromhex_str s); intros [= <-]. reflexivity.
Qed.

Lemma wp_fromhex v w (Q : result bytes -> Prop) :
  (forall b, fromhex v = Return b -> Q (mk_result (Return b) [] w)) ->
  (forall e, fromhex v = Raise e -> is_Exception (exc_cls e) = true ->
             Q (mk_result (Raise e) [] w)) ->
  wp (lift (fromhex v)) w Q.
Proof.
  intros Hok Herr. unfold wp, lift.
  destruct (fromhex v) as [b|e] eqn:E; eauto using fromhex_Exception.
Qed.

Ltac wp_simpl :=
  cbn beta iota zeta delta
    [out events after app then_run then_handle is_Exception exc_cls exc_str
     await record_call environ filesystem horizon net_history next_obj
     random_keypairs random_count].

Ltac wp_step :=
  lazymatch goal with
  | |- wp (bind _ _) _ _ => apply wp_bind
  | |- wp (try_except _ _) _ _ => apply wp_try
  | |- wp (ret _) _ _ => apply wp_ret
  | |- wp (raise _) _ _ => apply wp_raise
  | |- wp (print _) _ _ => apply wp_print
  | |- wp (getenv _) _ _ => apply wp_getenv
  | |- wp (load_wasm None) _ _ => apply wp_load_wasm; [intros ? | intros ? ?]
  | |- wp (load_account _ _) _ _ =>
      apply wp_load_account; intros ?
  | |- wp (submit_transaction _ _) _ _ =>
      apply wp_submit_transaction; intros [?|?]
  | |- wp (lift (getitem _ _)) _ _ => apply wp_getitem; [intros ? ? | intros ?]
  | |- wp (lift (fromhex _)) _ _ =>
      apply wp_fromhex; [intros ? ? | intros ? ? ?]
  | |- wp (lift _) _ _ => apply wp_lift
  | |- wp (if ?b then _ else _) _ _ => destruct b eqn:?
  | |- then_run _ _ _ => unfold then_run; wp_simpl
  | |- then_handle _ _ _ => unfold then_handle; wp_simpl
  | |- (if is_Exception (exc_cls ?e) then _ else _) =>
      first [ match goal with H : is_Exception (exc_cls e) = _ |- _ => rewrite H end
            | destruct (is_Exception (exc_cls e)) eqn:? ]
  | |- _ => progress wp_simpl
  end.

Ltac wp_start m w :=
  pattern (m w);
  lazymatch goal with |- ?Q _ => change (wp m w Q) end.


Ltac wp_run :=
  unfold deploy_contract, initialize_contract; wp_simpl; repeat wp_step.

Ltac trace_simpl :=
  cbn beta iota zeta delta
    [out events after app net_calls printed record_call net_history next_obj
     fresh_sources loaded_accounts submitted_sources sequence].

Section Claims.
Context `{Sdk}.

Lemma net_calls_app evs evs' :
  net_calls (evs ++ evs') = net_calls evs ++ net_calls evs'.
Proof.
  induction evs as [|[] evs IH]; cbn; [done|..]; by rewrite ?IH.
Qed.

Lemma printed_app evs evs' :
  printed (evs ++ evs') = printed evs ++ printed evs'.
Proof.
  induction evs as [|[] evs IH]; cbn; [done|..]; by rewrite ?IH.
Qed.

(** ** The constructor *)

Lemma setup_network_pure n w :
  events (setup_network n w) = [] /\ after (setup_network n w) = w.
Proof.
  unfold setup_network.
  destruct (String.eqb n "testnet"); [done|].
  by destruct (String.eqb n "futurenet").
Qed.

Lemma setup_account_out w :
  out (setup_account w)
  = if py_not (environ w !! "ADMIN_SECRET_KEY") then
      from_mnemonic_phrase mnemonic
    else from_secret (default "" (environ w !! "ADMIN_SECRET_KEY")).
Proof.
  unfold setup_account, bind, getenv, lift, print, emit, ret. cbn [out].
  destruct (py_not _).
  - by destruct (from_mnemonic_phrase mnemonic).
  - by destruct (from_secret _).
Qed.

Lemma setup_account_no_network w :
  net_calls (events (setup_account w)) = [] /\ after (setup_account w) = w.
Proof.
  unfold setup_account, bind, getenv, lift, print, emit, ret.
  destruct (py_not _).
  - by destruct (from_mnemonic_phrase mnemonic).
  - by destruct (from_secret _).
Qed.

Lemma VeriLuxeDeployer_inv n w self :
  out (VeriLuxeDeployer n w) = Return self ->
  network self = n
  /\ out (setup_network n w) = Return (profile self)
  /\ out (setup_account w) = Return (admin_keypair self).
Proof.
  unfold VeriLuxeDeployer, bind at 1.
  destruct (setup_network_pure n w) as [_ Hw].
  destruct (setup_network n w) as [[p|e] evs w1]; [|done].
  cbn in Hw. subst w1.
  unfold bind at 1.
  destruct (setup_account w) as [[kp|e] evs' w1]; [|done].
  cbn. by intros [= <-].
Qed.

Lemma VeriLuxeDeployer_no_network n w :
  net_calls (events (VeriLuxeDeployer n w)) = [].
Proof.
  unfold VeriLuxeDeployer, bind at 1.
  destruct (setup_network_pure n w) as [He Hw].
  destruct (setup_network n w) as [[p|e] evs w1]; cbn in He, Hw; subst;
    [|done].
  unfold bind at 1.
  destruct (setup_account_no_network w) as [He Hw].
  destruct (setup_account w) as [[kp|e] evs w1]; cbn in He, Hw; subst;
    [|done].
  unfold bind, print, emit, ret. cbn [events app].
  rewrite net_calls_app, He. reflexivity.
Qed.

(** ** Network profiles *)

(** C4: [testnet] and [futurenet] resolve to their fixed profiles, which the
    constructed deployer carries; for any other name the constructor raises
    [ValueError] with nothing done before it: no event, so neither the
    environment read of the account setup nor a network call. *)
Theorem network_profile_resolution (w : world) :
  setup_network "testnet" w
  = mk_result
      (Return (mk_profile "https://horizon-testnet.stellar.org"
                 "https://soroban-testnet.stellar.org"
                 TESTNET_NETWORK_PASSPHRASE)) [] w
  /\ setup_network "futurenet" w
     = mk_result
         (Return (mk_profile "https://horizon-futurenet.stellar.org"
                    "https://rpc-futurenet.stellar.org:443"
                    FUTURENET_NETWORK_PASSPHRASE)) [] w
  /\ (forall n self,
        out (VeriLuxeDeployer n w) = Return self ->
        network self = n /\ out (setup_network n w) = Return (profile self))
  /\ (forall n,
        n <> "testnet" -> n <> "futurenet" ->
        VeriLuxeDeployer n w
        = mk_result
            (Raise (mk_exc ValueError
                      [Lit "Unsupported network: "; Fmt (VStr n)])) [] w)
  /\ (forall n, net_calls (events (VeriLuxeDeployer n w)) = []).
Proof.
  split; [reflexivity|]. split; [reflexivity|]. split; [|split].
  - intros n self Hd. apply VeriLuxeDeployer_inv in Hd. tauto.
  - intros n Ht Hf. unfold VeriLuxeDeployer, bind at 1, setup_network.
    apply String.eqb_neq in Ht, Hf. by rewrite Ht, Hf.
  - intros n. apply VeriLuxeDeployer_no_network.
Qed.

(** ** The administrator keypair *)

Lemma setup_account_set w s :
  environ w !! "ADMIN_SECRET_KEY" = Some s -> s <> "" ->
  out (setup_account w) = from_secret s.
Proof.
  intros Hs Hne. rewrite setup_account_out, Hs. cbn.
  apply String.eqb_neq in Hne. by rewrite Hne.
Qed.

Lemma setup_account_unset w :
  environ w !! "ADMIN_SECRET_KEY" = None ->
  out (setup_account w) = from_mnemonic_phrase mnemonic.
Proof. intros Hs. by rewrite setup_account_out, Hs. Qed.

(** C5, as amended: a non-empty [ADMIN_SECRET_KEY] is parsed by
    [from_secret] and the result, keypair or exception, is the result of
    the account setup; without the variable the setup is
    [from_mnemonic_phrase] of the fixed phrase, the same in every world. *)
Theorem admin_keypair_source (w : world) :
  (forall s,
      environ w !! "ADMIN_SECRET_KEY" = Some s -> s <> "" ->
      out (setup_account w) = from_secret s)
  /\ (environ w !! "ADMIN_SECRET_KEY" = None ->
      out (setup_account w) = from_mnemonic_phrase mnemonic
      /\ forall w',
          environ w' !! "ADMIN_SECRET_KEY" = None ->
          out (setup_account w') = out (setup_account w)).
Proof.
  split; [apply setup_account_set|].
  intros Hs. split; [by apply setup_account_unset|].
  intros w' Hs'. by rewrite !setup_account_unset.
Qed.

(** C9: with [ADMIN_SECRET_KEY] set to the empty string the account setup
    does what it does without the variable: same outcome, same events,
    the keypair of the fixed phrase. *)
Theorem empty_secret_falls_back (w w' : world) :
  environ w !! "ADMIN_SECRET_KEY" = Some "" ->
  environ w' !! "ADMIN_SECRET_KEY" = None ->
  out (setup_account w) = from_mnemonic_phrase mnemonic
  /\ out (setup_account w) = out (setup_account w')
  /\ events (setup_account w) = events (setup_account w').
Proof.
  intros Hs Hs'. rewrite !setup_account_out, Hs, Hs'. cbn.
  split; [done|]. split; [done|].
  unfold setup_account, bind at 1 3, getenv. rewrite Hs, Hs'. cbn.
  unfold bind, lift, print, emit, ret.
  by destruct (from_mnemonic_phrase mnemonic).
Qed.

(** *** The hexadecimal form of a secret *)

Lemma hex_char_not_S n : hex_char n <> "S"%char.
Proof.
  destruct n as [|p]; [discriminate|].
  do 5 (try (destruct p as [p|p|]; try discriminate)).
Qed.

Lemma hex_not_native b t : b <> [] -> hex b <> String "S" t.
Proof.
  destruct b as [|x b]; [done|]. intros _. cbn [hex].
  intros [= Hc _]. by apply hex_char_not_S in Hc.
Qed.

(** C10: a non-empty [ADMIN_SECRET_KEY] goes to [from_secret] as it is,
    and the setup succeeds exactly when that parser does.  With a parser
    of the native encoding, whose secrets start with [S], every other
    value makes the setup fail.  The generator prints the hexadecimal form
    of the raw key and tells the operator to put it in [ADMIN_SECRET_KEY]:
    that value is rejected, and the constructor fails for every network. *)
Theorem hex_secret_rejected (w0 w : world) :
  (forall s kp, from_secret s = Return kp -> exists t, s = String "S" t) ->
  let kp := random_keypairs w0 (random_count w0) in
  let h := hex (raw_secret_key kp) in
  raw_secret_key kp <> [] ->
  (forall s,
      environ w !! "ADMIN_SECRET_KEY" = Some s -> s <> "" ->
      out (setup_account w) = from_secret s
      /\ ((forall t, s <> String "S" t) ->
          returned (out (setup_account w)) = false))
  /\ In [Lit "Secret Key (Hex): "; Fmt (VStr h)]
        (printed (events (generate_keypair w0)))
  /\ In [Lit ("- Usa el " ++ dquote ++ "Secret Key (Hex)" ++ dquote
              ++ " para ADMIN_SECRET_KEY en tu .env")]
        (printed (events (generate_keypair w0)))
  /\ (environ w !! "ADMIN_SECRET_KEY" = Some h ->
      (exists e, from_secret h = Raise e /\ out (setup_account w) = Raise e)
      /\ forall n, returned (out (VeriLuxeDeployer n w)) = false).
Proof.
  intros Hnative kp h Hraw.
  split.
  { intros s Hs Hne. rewrite (setup_account_set _ _ Hs Hne).
    split; [done|]. intros Hother.
    destruct (from_secret s) as [kp'|e] eqn:Hp; [|done].
    destruct (Hnative _ _ Hp) as [t Ht]. by destruct (Hother t). }
  split; [cbn; tauto|]. split; [cbn; tauto|].
  intros Henv.
  assert (Hne : h <> "").
  { unfold h. destruct (raw_secret_key kp); [done|]. discriminate. }
  assert (Hout : out (setup_account w) = from_secret h).
  { by apply setup_account_set. }
  destruct (from_secret h) as [kp'|e] eqn:Hp.
  { destruct (Hnative _ _ Hp) as [t Ht]. by apply hex_not_native in Ht. }
  split; [by exists e|].
  intros n. destruct (out (VeriLuxeDeployer n w)) as [self|] eqn:Hd; [|done].
  apply VeriLuxeDeployer_inv in Hd as (_ & _ & Hk). congruence.
Qed.

(** ** The deployment *)

(** C3: when the contract binary is missing [deploy_contract] raises
    [FileNotFoundError] and has made no call on the Horizon server. *)
Theorem missing_wasm_fails_before_network (self : Deployer) (w : world) :
  filesystem w !! default_wasm_path = None ->
  let r := await (deploy_contract self) w in
  out r = Raise (mk_exc FileNotFoundError
                   [Lit "WASM file not found: "; Fmt (VStr default_wasm_path)])
  /\ net_calls (events r) = []
  /\ net_history (after r) = net_history w.
Proof.
  intros Hf r. subst r.
  wp_start (await (deploy_contract self)) w.
  wp_run; try congruence.
  trace_simpl. auto.
Qed.

(** C1: when the first submission, the upload, is answered with a status
    that is not a success, [deploy_contract] raises; that submission is the
    last call on the server, and all that follows it is the report of the
    failure. *)
Theorem upload_failure_aborts (self : Deployer) (w : world)
    c url tx resp rest v :
  let r := await (deploy_contract self) w in
  net_calls (events r) = c :: SubmitTransaction url tx (Return resp) :: rest ->
  resp !! "successful" = Some v ->
  truthy v = false ->
  out r = Raise (mk_exc Exception [Lit "Upload failed: "; FmtDict resp])
  /\ rest = []
  /\ (exists wasm, tx_operations tx = [UploadContractWasm wasm])
  /\ (exists pre,
        events r
        = pre ++ [Net (SubmitTransaction url tx (Return resp));
                  Print [Lit "❌ Deployment failed: "; Lit "Upload failed: ";
                         FmtDict resp]]).
Proof.
  intros r. subst r.
  wp_start (await (deploy_contract self)) w.
  wp_run; trace_simpl; intros Ht Hs Hv; try discriminate Ht; simplify_eq.
  all: try congruence.
  repeat split; [by eexists|].
  by eexists [_; _; _; _; _; _; _].
Qed.

(** C2, as amended: once the upload and the instantiation have succeeded,
    an initialization answered with a status that is not a success leaves
    a warning and [deploy_contract] returns the record with the hash and
    the address; an initialization whose submission raises makes
    [deploy_contract] raise that exception, and no record is returned. *)
Theorem initialization_failure_outcome (self : Deployer) (w : world)
    c1 u1 t1 r1 c2 u2 t2 r2 c3 u3 t3 o3 :
  let r := await (deploy_contract self) w in
  net_calls (events r)
  = [c1; SubmitTransaction u1 t1 (Return r1);
     c2; SubmitTransaction u2 t2 (Return r2);
     c3; SubmitTransaction u3 t3 o3] ->
  match o3 with
  | Return r3 =>
      forall v,
        r3 !! "successful" = Some v -> truthy v = false ->
        exists h a,
          r1 !! "hash" = Some h
          /\ r2 !! "contract_address" = Some a
          /\ out r = Return (deployment_record h a
                               (public_key (admin_keypair self))
                               (network self))
          /\ last (printed (events r))
             = Some [Lit "⚠️ Contract initialization may have failed: ";
                     FmtDict r3]
  | Raise e => out r = Raise e
  end.
Proof.
  intros r. subst r.
  wp_start (await (deploy_contract self)) w.
  wp_run; trace_simpl; intros Ht; try discriminate Ht; simplify_eq.
  all: try reflexivity.
  all: intros v' Hs Hv; simplify_eq; try congruence.
  eexists _, _. repeat split; eauto.
Qed.

(** C7: when all six calls on the server succeed and the initialization
    is answered with a success, [deploy_contract] returns exactly the
    record of the [hash] of the upload response, the [contract_address]
    of the instantiation response, the public key of the administrator
    keypair that the account setup resolved, and the network name the
    deployer was constructed with. *)
Theorem full_success_record (n : string) (w0 : world) (self : Deployer)
    (w : world) c1 u1 t1 r1 c2 u2 t2 r2 c3 u3 t3 r3 v :
  out (VeriLuxeDeployer n w0) = Return self ->
  let r := await (deploy_contract self) w in
  net_calls (events r)
  = [c1; SubmitTransaction u1 t1 (Return r1);
     c2; SubmitTransaction u2 t2 (Return r2);
     c3; SubmitTransaction u3 t3 (Return r3)] ->
  r3 !! "successful" = Some v ->
  truthy v = true ->
  exists h a kp,
    r1 !! "hash" = Some h
    /\ r2 !! "contract_address" = Some a
    /\ out (setup_account w0) = Return kp
    /\ out r = Return (deployment_record h a (public_key kp) n).
Proof.
  intros Hd r. subst r.
  apply VeriLuxeDeployer_inv in Hd as (Hn & _ & Hk).
  wp_start (await (deploy_contract self)) w.
  wp_run; trace_simpl; intros Ht Hs Hv; try discriminate Ht; simplify_eq.
  all: try congruence.
  eexists _, _, _. repeat split; eauto.
Qed.

(** C6: in every run each submitted transaction has as its source the
    account object returned by the [load_account] call made just before
    it, and the objects so loaded are pairwise distinct, so no account,
    and no sequence number read with it, serves two transactions. *)
Theorem accounts_loaded_afresh (self : Deployer) (w : world) :
  let calls := net_calls (events (await (deploy_contract self) w)) in
  fresh_sources None calls = true
  /\ NoDup (account_obj <$> loaded_accounts calls)
  /\ submitted_sources calls `prefix_of` loaded_accounts calls.
Proof.
  intros calls. subst calls.
  wp_start (await (deploy_contract self)) w.
  wp_run; trace_simpl.
  all: rewrite ?bool_decide_eq_true_2 by reflexivity.
  all: split; [reflexivity|].
  all: split; [|try done].
  all: cbn [fmap list_fmap account_obj].
  all: repeat (apply NoDup_cons; split;
               [rewrite ?elem_of_cons, elem_of_nil; lia|]).
  all: try apply NoDup_nil_2.
  all: first [by eexists [] | by eexists [_]].
Qed.

(** ** The command line *)

Example network_argument_default : network_argument ["python-deploy.py"] = "testnet".
Proof. reflexivity. Qed.

Example network_argument_given :
  network_argument ["python-deploy.py"; "futurenet"; "extra"] = "futurenet".
Proof. reflexivity. Qed.

(** What [main] comes to: the constructor on the network argument, then
    the report of a failure. *)
Lemma main_run argv w :
  main argv w
  = match VeriLuxeDeployer (network_argument argv) w with
    | mk_result (Return _) evs w1 =>
        mk_result (Raise exit_1)
          (evs ++ [Print [Lit "\n🎉 Deployment Summary:"];
                   Print [Lit (str_mul "━" 50)];
                   Print [Lit "\n💥 Deployment failed: ";
                          Lit "'coroutine' object is not subscriptable"]])
          w1
    | mk_result (Raise e) evs w1 =>
        if is_Exception (exc_cls e) then
          mk_result (Raise exit_1)
            (evs ++ [Print (Lit "\n💥 Deployment failed: " :: exc_str e)]) w1
        else mk_result (Raise e) evs w1
    end.
Proof.
  unfold main, try_except, bind at 1.
  destruct (VeriLuxeDeployer (network_argument argv) w) as [[self|e] evs w1].
  - cbn. by rewrite <- app_assoc.
  - by destruct (is_Exception (exc_cls e)).
Qed.

(** [main] makes the coroutine and never awaits it: whatever the world,
    it makes no call on the server and does not end normally. *)
Lemma main_never_deploys argv w :
  net_calls (events (main argv w)) = []
  /\ returned (out (main argv w)) = false.
Proof.
  rewrite main_run.
  pose proof (VeriLuxeDeployer_no_network (network_argument argv) w) as Hn.
  destruct (VeriLuxeDeployer (network_argument argv) w)
    as [[self|e] evs w1]; cbn [events] in Hn.
  - cbn [events out returned]. by rewrite net_calls_app, Hn.
  - destruct (is_Exception (exc_cls e)); cbn [events out returned]; [|done].
    by rewrite net_calls_app, Hn.
Qed.

(** Once the deployer is constructed, [main] reports a failure and exits
    with status 1, whether or not the deployment would succeed. *)
Lemma main_exit_status argv w self :
  out (VeriLuxeDeployer (network_argument argv) w) = Return self ->
  exit_status (out (main argv w)) = 1%Z
  /\ last (printed (events (main argv w)))
     = Some [Lit "\n💥 Deployment failed: ";
             Lit "'coroutine' object is not subscriptable"].
Proof.
  rewrite main_run.
  destruct (VeriLuxeDeployer (network_argument argv) w)
    as [[d|e] evs w1]; cbn [out]; [|done].
  intros _. cbn [events]. split; [done|].
  rewrite printed_app, last_app. reflexivity.
Qed.

(** A failing constructor is reported and the exit status is 1. *)
Lemma main_construction_failure argv w e :
  out (VeriLuxeDeployer (network_argument argv) w) = Raise e ->
  is_Exception (exc_cls e) = true ->
  exit_status (out (main argv w)) = 1%Z
  /\ last (printed (events (main argv w)))
     = Some (Lit "\n💥 Deployment failed: " :: exc_str e).
Proof.
  rewrite main_run.
  destruct (VeriLuxeDeployer (network_argument argv) w)
    as [[d|e'] evs w1]; cbn [out]; [done|].
  intros [= ->] ->. cbn [events out]. split; [done|].
  rewrite printed_app, last_app. reflexivity.
Qed.
End Claims.

(** * The claims on the test doubles *)

(** The parser of the test SDK accepts only strings that start with [S]. *)
Lemma mock_sdk_native s kp :
  @from_secret Mock.sdk s = Return kp -> exists t, s = String "S" t.
Proof.
  destruct s as [|c s]; cbn; [discriminate|].
  destruct (Ascii.eqb c "S") eqn:E; [|discriminate].
  apply Ascii.eqb_eq in E. subst c. eauto.
Qed.

(** C4 on a world: [mainnet] is refused and nothing has happened. *)
Lemma network_profile_resolution_witness :
  @VeriLuxeDeployer Mock.sdk "mainnet" Mock.happy
  = mk_result
      (Raise (mk_exc ValueError
                [Lit "Unsupported network: "; Fmt (VStr "mainnet")]))
      [] Mock.happy.
Proof.
  destruct (@network_profile_resolution Mock.sdk Mock.happy)
    as (_ & _ & _ & Hother & _).
  apply Hother; discriminate.
Defined.

(** C5, as amended, on a world whose variable holds a native secret. *)
Lemma admin_keypair_source_witness :
  out (@setup_account Mock.sdk Mock.with_secret)
  = @from_secret Mock.sdk Mock.native_secret.
Proof.
  destruct (@admin_keypair_source Mock.sdk Mock.with_secret) as [Hset _].
  apply Hset; [reflexivity | discriminate].
Defined.

(** C5, as stated, fails on the empty string: the variable is set, its
    value is not parsed, and the keypair is the one of the fixed phrase. *)
Lemma empty_secret_not_parsed :
  environ Mock.empty_secret !! "ADMIN_SECRET_KEY" = Some ""
  /\ out (@setup_account Mock.sdk Mock.empty_secret) = Return Mock.admin
  /\ out (@setup_account Mock.sdk Mock.empty_secret)
     <> @from_secret Mock.sdk "".
Proof. split; [reflexivity|]. split; [reflexivity | discriminate]. Qed.

(** C9 on a world whose variable is empty and one without the variable. *)
Lemma empty_secret_falls_back_witness :
  out (@setup_account Mock.sdk Mock.empty_secret)
  = out (@setup_account Mock.sdk Mock.happy).
Proof.
  apply (@empty_secret_falls_back Mock.sdk Mock.empty_secret Mock.happy);
    reflexivity.
Defined.

(** C10 on a world whose variable holds the hexadecimal form [01ab]. *)
Lemma hex_secret_rejected_witness :
  exists e,
    @from_secret Mock.sdk "01ab" = Raise e
    /\ out (@setup_account Mock.sdk Mock.hex_secret) = Raise e.
Proof.
  destruct (@hex_secret_rejected Mock.sdk Mock.happy Mock.hex_secret
              mock_sdk_native)
    as (_ & _ & _ & Hhex); [discriminate|].
  apply Hhex. reflexivity.
Defined.

(** C3 on a world with no file. *)
Lemma missing_wasm_witness :
  net_calls (events (await (deploy_contract Mock.deployer)
                       Mock.no_wasm)) = [].
Proof.
  apply (missing_wasm_fails_before_network Mock.deployer
           Mock.no_wasm).
  reflexivity.
Defined.

(** C1 on a world whose server rejects the upload. *)
Lemma upload_failure_witness :
  out (await (deploy_contract Mock.deployer) Mock.upload_rejected)
  = Raise (mk_exc Exception [Lit "Upload failed: "; FmtDict Mock.failed]).
Proof.
  eapply (upload_failure_aborts Mock.deployer Mock.upload_rejected
            _ _ _ Mock.failed [] (VBool false));
    reflexivity.
Defined.

(** C2, as amended, on a world whose server rejects the initialization. *)
Lemma initialization_soft_failure_witness :
  out (await (deploy_contract Mock.deployer) Mock.init_rejected)
  = Return (deployment_record (VStr "00ff") (VStr "CCONTRACT") "GADMIN"
              "testnet").
Proof.
  destruct (initialization_failure_outcome Mock.deployer Mock.init_rejected
              _ _ _ _ _ _ _ _ _ _ _ _ eq_refl (VBool false) eq_refl eq_refl)
    as (h & a & Hh & Ha & Hout & _).
  injection Hh as <-. injection Ha as <-. exact Hout.
Defined.

(** C2, as stated, fails when the submission of the initialization
    raises: the upload and the instantiation have returned the hash and
    the address, and [deploy_contract] raises instead of returning them. *)
Lemma initialization_exception_propagates :
  let r := await (deploy_contract Mock.deployer) Mock.init_raises in
  (exists c1 u1 t1 c2 u2 t2 c3 u3 t3,
      net_calls (events r)
      = [c1; SubmitTransaction u1 t1 (Return Mock.upload_ok);
         c2; SubmitTransaction u2 t2 (Return Mock.create_ok);
         c3; SubmitTransaction u3 t3 (Raise Mock.timeout)])
  /\ out r = Raise Mock.timeout
  /\ returned (out r) = false.
Proof.
  split; [|split; reflexivity].
  by eexists _, _, _, _, _, _, _, _, _.
Qed.

(** C7 on a world where every call succeeds. *)
Lemma full_success_witness :
  out (await (deploy_contract Mock.deployer) Mock.happy)
  = Return (deployment_record (VStr "00ff") (VStr "CCONTRACT") "GADMIN"
              "testnet").
Proof.
  destruct (@full_success_record Mock.sdk "testnet" Mock.happy Mock.deployer
              Mock.happy _ _ _ _ _ _ _ _ _ _ _ _ (VBool true)
              eq_refl eq_refl eq_refl eq_refl)
    as (h & a & kp & Hh & Ha & Hk & Hout).
  injection Hh as <-. injection Ha as <-. injection Hk as <-. exact Hout.
Defined.

(** C8: in a world where the constructor succeeds and the awaited
    deployment would return its record, [main] with no network argument
    makes no call on the server, reports a failure and exits with
    status 1, not 0. *)
Theorem main_exits_1_where_deployment_succeeds :
  let r := @main Mock.sdk ["python-deploy.py"] Mock.happy in
  out (@VeriLuxeDeployer Mock.sdk "testnet" Mock.happy) = Return Mock.deployer
  /\ returned (out (await (deploy_contract Mock.deployer) Mock.happy)) = true
  /\ net_calls (events r) = []
  /\ exit_status (out r) = 1%Z
  /\ last (printed (events r))
     = Some [Lit "\n💥 Deployment failed: ";
             Lit "'coroutine' object is not subscriptable"].
Proof.
  intros r. subst r. repeat apply conj; vm_compute; reflexivity.
Qed.

(** * Further properties of the scripts *)

Section Extras.
Context `{Sdk}.

(** X1: when the fourth call, the submission of the instantiation, is
    answered with a status that is not a success, [deploy_contract] raises
    and reports it; that submission is the last call on the server, so the
    initialization is never attempted. *)
Theorem instantiate_failure_aborts (self : Deployer) (w : world)
    c1 s1 c2 url tx resp rest v :
  let r := await (deploy_contract self) w in
  net_calls (events r)
  = c1 :: s1 :: c2 :: SubmitTransaction url tx (Return resp) :: rest ->
  resp !! "successful" = Some v ->
  truthy v = false ->
  out r = Raise (mk_exc Exception
                   [Lit "Contract creation failed: "; FmtDict resp])
  /\ rest = []
  /\ (exists h,
        tx_operations tx
        = [CreateContract h (public_key (admin_keypair self))])
  /\ last (printed (events r))
     = Some [Lit "❌ Deployment failed: "; Lit "Contract creation failed: ";
             FmtDict resp].
Proof.
  intros r. subst r.
  wp_start (await (deploy_contract self)) w.
  wp_run; trace_simpl; intros Ht Hs Hv; try discriminate Ht; simplify_eq.
  all: try congruence.
  repeat split. by eexists.
Qed.

(** X2: the first call on the server that raises is the last call of the
    run, and [deploy_contract] raises that very exception. *)
Theorem first_error_is_terminal (self : Deployer) (w : world) i c e :
  let r := await (deploy_contract self) w in
  net_calls (events r) !! i = Some c ->
  call_raised c = Some e ->
  length (net_calls (events r)) = S i /\ out r = Raise e.
Proof.
  intros r. subst r.
  wp_start (await (deploy_contract self)) w.
  wp_run; trace_simpl; intros Hi Hc.
  all: repeat (destruct i as [|i]; simplify_eq/=; try done).
Qed.

(** X3: the calls of a run alternate between loading the account and
    submitting a transaction, starting with a load, and there are at most
    three of each. *)
Theorem calls_alternate (self : Deployer) (w : world) :
  is_load_call <$> net_calls (events (await (deploy_contract self) w))
  `prefix_of` [true; false; true; false; true; false].
Proof.
  wp_start (await (deploy_contract self)) w.
  wp_run; trace_simpl; cbn [fmap list_fmap is_load_call].
  all: first [ by eexists [] | by eexists [_] | by eexists [_; _]
             | by eexists [_; _; _] | by eexists [_; _; _; _]
             | by eexists [_; _; _; _; _] | by eexists [_; _; _; _; _; _] ].
Qed.

(** X4: every call of a run goes to the Horizon server of the deployer's
    profile and concerns the administrator's account, and every submitted
    transaction has one operation, base fee 100000, timeout 300, the
    profile's passphrase and the administrator as its only signer. *)
Theorem calls_are_the_administrators (self : Deployer) (w : world) :
  Forall (admin_call self)
    (net_calls (events (await (deploy_contract self) w))).
Proof.
  wp_start (await (deploy_contract self)) w.
  wp_run; trace_simpl.
  all: repeat (apply Forall_cons; split; [by repeat split|]).
  all: apply Forall_nil_2.
Qed.

(** X5: a submitted upload carries the bytes of the contract binary as
    they are in the file. *)
Theorem upload_carries_the_binary (self : Deployer) (w : world)
    c url tx o rest :
  let r := await (deploy_contract self) w in
  net_calls (events r) = c :: SubmitTransaction url tx o :: rest ->
  exists wasm,
    filesystem w !! default_wasm_path = Some wasm
    /\ tx_operations tx = [UploadContractWasm wasm]
    /\ In [Lit "📦 Loaded WASM file (";
           Fmt (VInt (Z.of_nat (length wasm))); Lit " bytes)"]
         (printed (events r)).
Proof.
  intros r. subst r.
  wp_start (await (deploy_contract self)) w.
  wp_run; trace_simpl; intros Ht; try discriminate Ht; simplify_eq.
  all: eexists; split; [eassumption|]; split; [reflexivity|].
  all: cbn; tauto.
Qed.

(** X6: a submitted instantiation refers to the bytes that
    [bytes.fromhex] makes of the [hash] of the upload response, with the
    administrator as owner. *)
Theorem instantiate_uses_uploaded_hash (self : Deployer) (w : world)
    c1 u1 t1 o1 c2 u2 t2 o2 rest :
  let r := await (deploy_contract self) w in
  net_calls (events r)
  = c1 :: SubmitTransaction u1 t1 o1 :: c2 :: SubmitTransaction u2 t2 o2
      :: rest ->
  exists r1 hv h,
    o1 = Return r1
    /\ r1 !! "hash" = Some hv
    /\ fromhex hv = Return h
    /\ tx_operations t2
       = [CreateContract h (public_key (admin_keypair self))].
Proof.
  intros r. subst r.
  wp_start (await (deploy_contract self)) w.
  wp_run; trace_simpl; intros Ht; try discriminate Ht; simplify_eq.
  all: by eexists _, _, _.
Qed.

(** X7: a submitted initialization invokes [init] on the
    [contract_address] of the instantiation response, with the
    administrator's public key as the only argument, and is the last call
    of the run. *)
Theorem initialize_targets_created_contract (self : Deployer) (w : world)
    c1 s1 c2 u2 t2 o2 c3 u3 t3 o3 rest :
  let r := await (deploy_contract self) w in
  net_calls (events r)
  = c1 :: s1 :: c2 :: SubmitTransaction u2 t2 o2
      :: c3 :: SubmitTransaction u3 t3 o3 :: rest ->
  exists r2 a,
    o2 = Return r2
    /\ r2 !! "contract_address" = Some a
    /\ tx_operations t3
       = [InvokeContract a "init" [public_key (admin_keypair self)]]
    /\ rest = [].
Proof.
  intros r. subst r.
  wp_start (await (deploy_contract self)) w.
  wp_run; trace_simpl; intros Ht; try discriminate Ht; simplify_eq.
  all: by eexists _, _.
Qed.

(** X8: [deploy_contract] returns only after six calls that all returned,
    with an upload and an instantiation answered with a success and an
    initialization response that has a [successful] entry, whatever its
    value; what it returns is the record of the hash and the address. *)
Theorem returns_only_after_all_phases (self : Deployer) (w : world) d :
  let r := await (deploy_contract self) w in
  out r = Return d ->
  exists c1 u1 t1 r1 c2 u2 t2 r2 c3 u3 t3 r3 v1 v2 h a,
    net_calls (events r)
    = [c1; SubmitTransaction u1 t1 (Return r1);
       c2; SubmitTransaction u2 t2 (Return r2);
       c3; SubmitTransaction u3 t3 (Return r3)]
    /\ call_raised c1 = None /\ call_raised c2 = None
    /\ call_raised c3 = None
    /\ r1 !! "successful" = Some v1 /\ truthy v1 = true
    /\ r2 !! "successful" = Some v2 /\ truthy v2 = true
    /\ is_Some (r3 !! "successful")
    /\ r1 !! "hash" = Some h
    /\ r2 !! "contract_address" = Some a
    /\ d = deployment_record h a (public_key (admin_keypair self))
             (network self).
Proof.
  intros r. subst r.
  wp_start (await (deploy_contract self)) w.
  wp_run; trace_simpl; intros Hd; try discriminate Hd; simplify_eq.
  all: eexists _, _, _, _, _, _, _, _, _, _, _, _, _, _, _, _.
  all: repeat split; eauto.
Qed.

(** X9: a submission answered with a response that has no [successful]
    entry is the last call of the run, and [deploy_contract] raises
    [KeyError('successful')]; this holds for the initialization too, when
    the contract is already instantiated. *)
Theorem response_without_status (self : Deployer) (w : world)
    i url tx resp :
  let r := await (deploy_contract self) w in
  net_calls (events r) !! i = Some (SubmitTransaction url tx (Return resp)) ->
  resp !! "successful" = None ->
  length (net_calls (events r)) = S i
  /\ out r = Raise (key_error "successful").
Proof.
  intros r. subst r.
  wp_start (await (deploy_contract self)) w.
  wp_run; trace_simpl; intros Hi Hc.
  all: repeat (destruct i as [|i]; simplify_eq/=; try done).
Qed.

(** X10: an upload answered with a success but without a [hash] entry is
    reported as uploaded, then [deploy_contract] raises [KeyError('hash')]
    and makes no further call. *)
Theorem upload_response_without_hash (self : Deployer) (w : world)
    c url tx resp rest v :
  let r := await (deploy_contract self) w in
  net_calls (events r) = c :: SubmitTransaction url tx (Return resp) :: rest ->
  resp !! "successful" = Some v ->
  truthy v = true ->
  resp !! "hash" = None ->
  out r = Raise (key_error "hash")
  /\ rest = []
  /\ In [Lit "✅ Contract WASM uploaded successfully"] (printed (events r)).
Proof.
  intros r. subst r.
  wp_start (await (deploy_contract self)) w.
  wp_run; trace_simpl; intros Ht Hs Hv Hh; try discriminate Ht; simplify_eq.
  all: try congruence.
  repeat split. cbn. tauto.
Qed.

(** X11: an instantiation answered with a success but without a
    [contract_address] entry is reported as created, then
    [deploy_contract] raises [KeyError('contract_address')]; the
    initialization is never attempted. *)
Theorem create_response_without_address (self : Deployer) (w : world)
    c1 s1 c2 url tx resp rest v :
  let r := await (deploy_contract self) w in
  net_calls (events r)
  = c1 :: s1 :: c2 :: SubmitTransaction url tx (Return resp) :: rest ->
  resp !! "successful" = Some v ->
  truthy v = true ->
  resp !! "contract_address" = None ->
  out r = Raise (key_error "contract_address")
  /\ rest = []
  /\ In [Lit "✅ Contract instance created successfully"]
        (printed (events r)).
Proof.
  intros r. subst r.
  wp_start (await (deploy_contract self)) w.
  wp_run; trace_simpl; intros Ht Hs Hv Hh; try discriminate Ht; simplify_eq.
  all: try congruence.
  repeat split. cbn. tauto.
Qed.

(** X12: when the [hash] of a successful upload is not a string of
    hexadecimal digit pairs, the account is loaded once more and nothing
    is submitted after that; if that load returns, [deploy_contract]
    raises the exception of [bytes.fromhex]. *)
Theorem undecodable_hash (self : Deployer) (w : world)
    c url tx resp rest v hv e :
  let r := await (deploy_contract self) w in
  net_calls (events r) = c :: SubmitTransaction url tx (Return resp) :: rest ->
  resp !! "successful" = Some v ->
  truthy v = true ->
  resp !! "hash" = Some hv ->
  fromhex hv = Raise e ->
  exists u a o,
    rest = [LoadAccount u a o]
    /\ (call_raised (LoadAccount u a o) = None -> out r = Raise e).
Proof.
  intros r. subst r.
  wp_start (await (deploy_contract self)) w.
  wp_run; trace_simpl; intros Ht Hs Hv Hh He; try discriminate Ht;
    simplify_eq.
  all: try congruence.
  all: eexists _, _, _; split; [reflexivity|]; cbn; congruence.
Qed.

(** X13: whenever [deploy_contract] raises an exception that derives from
    [Exception], the last line it prints is the failure report with the
    text of that exception; when it returns it prints no such report. *)
Theorem failure_is_reported (self : Deployer) (w : world) :
  let r := await (deploy_contract self) w in
  match out r with
  | Raise e =>
      is_Exception (exc_cls e) = true ->
      last (printed (events r))
      = Some (Lit "❌ Deployment failed: " :: exc_str e)
  | Return _ =>
      forall line,
        In line (printed (events r)) ->
        hd_error line <> Some (Lit "❌ Deployment failed: ")
  end.
Proof.
  intros r. subst r.
  wp_start (await (deploy_contract self)) w.
  wp_run; trace_simpl; try congruence; try reflexivity.
  all: intros line Hin; cbn in Hin.
  all: repeat (destruct Hin as [<-|Hin]; [discriminate|]); done.
Qed.

(** X14: an exception raised by a call of the initialization, the fifth
    or the sixth call of the run, is reported twice, by the handler of
    [initialize_contract] and then by the handler of [deploy_contract]. *)
Theorem initialization_error_reported_twice (self : Deployer) (w : world)
    c e :
  let r := await (deploy_contract self) w in
  In c (drop 4 (net_calls (events r))) ->
  call_raised c = Some e ->
  is_Exception (exc_cls e) = true ->
  exists pre,
    printed (events r)
    = pre ++ [Lit "❌ Initialization failed: " :: exc_str e;
              Lit "❌ Deployment failed: " :: exc_str e].
Proof.
  intros r. subst r.
  wp_start (await (deploy_contract self)) w.
  wp_run; trace_simpl; cbn [drop In]; intros Hi Hc He.
  all: repeat (destruct Hi as [<-|Hi]; [cbn in Hc; simplify_eq|]);
    try done.
  all: try congruence.
  all: by eexists [_; _; _; _; _; _; _; _; _; _].
Qed.

(** X15: [initialize_contract] returns normally exactly when the account
    load and the submission both return and the response has a
    [successful] entry, whether or not it says success; the transaction
    invokes [init] on the given address. *)
Theorem initialize_contract_returns_iff (self : Deployer) (address : value)
    (w : world) :
  let r := await (initialize_contract self address) w in
  out r = Return tt
  <-> exists account resp,
        net_calls (events r)
        = [LoadAccount (horizon_url (profile self))
             (public_key (admin_keypair self)) (Return account);
           SubmitTransaction (horizon_url (profile self))
             (signed_tx self account
                (InvokeContract address "init"
                   [public_key (admin_keypair self)]))
             (Return resp)]
        /\ is_Some (resp !! "successful").
Proof.
  intros r. subst r.
  wp_start (await (initialize_contract self address)) w.
  wp_run; trace_simpl.
  all: split.
  all: try (intros Ho; discriminate Ho).
  all: try (intros _; eexists _, _; split; [reflexivity|eauto]).
  all: intros (account & resp & Hc & Hs); simplify_eq.
  all: destruct Hs; congruence.
Qed.



(** X18: with a network argument that is neither [testnet] nor
    [futurenet], [main] prints the failure with that name and exits with
    status 1; it reads no variable and makes no call. *)
Theorem main_unsupported_network (argv : list string) (w : world) :
  network_argument argv <> "testnet" ->
  network_argument argv <> "futurenet" ->
  main argv w
  = mk_result (Raise exit_1)
      [Print [Lit "\n💥 Deployment failed: "; Lit "Unsupported network: ";
              Fmt (VStr (network_argument argv))]] w
  /\ exit_status (out (main argv w)) = 1%Z.
Proof.
  intros Ht Hf. apply String.eqb_neq in Ht, Hf.
  assert (Hm : main argv w
               = mk_result (Raise exit_1)
                   [Print [Lit "\n💥 Deployment failed: ";
                           Lit "Unsupported network: ";
                           Fmt (VStr (network_argument argv))]] w).
  { rewrite main_run. unfold VeriLuxeDeployer, bind at 1, setup_network.
    by rewrite Ht, Hf. }
  by rewrite Hm.
Qed.

(** X19: whatever the arguments and the world, [main] makes no call on
    the server and does not end normally: it ends with [sys.exit(1)], or
    with an exception of the constructor that does not derive from
    [Exception]. *)
Theorem main_always_fails (argv : list string) (w : world) :
  net_calls (events (main argv w)) = []
  /\ (out (main argv w) = Raise exit_1
      \/ exists e,
          out (main argv w) = Raise e
          /\ is_Exception (exc_cls e) = false
          /\ out (VeriLuxeDeployer (network_argument argv) w) = Raise e).
Proof.
  rewrite main_run.
  pose proof (VeriLuxeDeployer_no_network (network_argument argv) w) as Hn.
  destruct (VeriLuxeDeployer (network_argument argv) w)
    as [[self|e] evs w1]; cbn [events] in Hn.
  - cbn [events out]. rewrite net_calls_app, Hn. auto.
  - destruct (is_Exception (exc_cls e)) eqn:E; cbn [events out].
    + rewrite net_calls_app, Hn. auto.
    + split; [done|]. right. by exists e.
Qed.

Lemma hex_length b : String.length (hex b) = 2 * length b.
Proof. induction b as [|x b IH]; [done|]. cbn [hex String.length length]. lia. Qed.

(** X20: [generate_keypair] only prints: twelve lines, no call on the
    server, no variable read, no file touched.  The third line carries the
    private key in hexadecimal, two characters for each byte of the raw
    key, and [bytes.fromhex] gives the raw key back from it. *)
Theorem generated_hex_decodes (w : world) :
  let kp := random_keypairs w (random_count w) in
  let r := generate_keypair w in
  out r = Return tt
  /\ events r = Print <$> printed (events r)
  /\ length (printed (events r)) = 12
  /\ printed (events r) !! 2
     = Some [Lit "Secret Key (Hex): "; Fmt (VStr (hex (raw_secret_key kp)))]
  /\ String.length (hex (raw_secret_key kp)) = 2 * length (raw_secret_key kp)
  /\ fromhex (VStr (hex (raw_secret_key kp))) = Return (raw_secret_key kp).
Proof.
  intros kp r. subst kp r.
  repeat split; try reflexivity; [apply hex_length | apply fromhex_hex].
Qed.

(** X21: a [hash] that is the lowercase hexadecimal form of some bytes, as
    the server writes hashes, reaches the instantiation as those bytes. *)
Theorem hex_hash_reaches_instantiation (self : Deployer) (w : world)
    c1 u1 t1 r1 c2 u2 t2 o2 rest b :
  let r := await (deploy_contract self) w in
  net_calls (events r)
  = c1 :: SubmitTransaction u1 t1 (Return r1) :: c2
      :: SubmitTransaction u2 t2 o2 :: rest ->
  r1 !! "hash" = Some (VStr (hex b)) ->
  tx_operations t2 = [CreateContract b (public_key (admin_keypair self))].
Proof.
  intros r. subst r.
  wp_start (await (deploy_contract self)) w.
  wp_run; trace_simpl; intros Ht Hh; try discriminate Ht; simplify_eq.
  all: match goal with
       | Hf : fromhex (VStr (hex _)) = _ |- _ => rewrite fromhex_hex in Hf
       end; by simplify_eq.
Qed.
End Extras.

(** * The further properties on the test doubles *)

(** X1 on a world whose server rejects the instantiation. *)
Lemma instantiate_failure_witness :
  out (await (deploy_contract Mock.deployer) Mock.create_rejected)
  = Raise (mk_exc Exception
             [Lit "Contract creation failed: "; FmtDict Mock.failed]).
Proof.
  eapply (instantiate_failure_aborts Mock.deployer Mock.create_rejected
            _ _ _ _ _ Mock.failed [] (VBool false));
    reflexivity.
Defined.

(** X2 on a world whose first account load times out. *)
Lemma first_error_witness :
  out (await (deploy_contract Mock.deployer) Mock.load_fails)
  = Raise Mock.timeout.
Proof.
  eapply (first_error_is_terminal Mock.deployer Mock.load_fails 0 _
            Mock.timeout);
    reflexivity.
Defined.

(** X5 on a world where every call succeeds. *)
Lemma upload_binary_witness :
  exists wasm, filesystem Mock.happy !! default_wasm_path = Some wasm.
Proof.
  edestruct (upload_carries_the_binary Mock.deployer Mock.happy)
    as (wasm & Hf & _); [reflexivity|].
  by exists wasm.
Defined.

(** X6 on a world where every call succeeds. *)
Lemma instantiate_hash_witness :
  exists hv h,
    Mock.upload_ok !! "hash" = Some hv /\ fromhex hv = Return h.
Proof.
  edestruct (instantiate_uses_uploaded_hash Mock.deployer Mock.happy)
    as (r1 & hv & h & Ho & Hh & Hx & _); [reflexivity|].
  injection Ho as <-. by exists hv, h.
Defined.

(** X7 on a world where every call succeeds. *)
Lemma initialize_target_witness :
  exists a, Mock.create_ok !! "contract_address" = Some a.
Proof.
  edestruct (initialize_targets_created_contract Mock.deployer Mock.happy)
    as (r2 & a & Ho & Ha & _); [reflexivity|].
  injection Ho as <-. by exists a.
Defined.

(** X8 on a world where every call succeeds. *)
Lemma returns_after_all_phases_witness :
  length (net_calls (events (await (deploy_contract Mock.deployer)
                               Mock.happy))) = 6.
Proof.
  edestruct (returns_only_after_all_phases Mock.deployer Mock.happy)
    as (c1 & u1 & t1 & r1 & c2 & u2 & t2 & r2 & c3 & u3 & t3 & r3 & Hrest);
    [reflexivity|].
  destruct Hrest as (v1 & v2 & h & a & Hc & _). by rewrite Hc.
Defined.

(** X9 on a world whose server answers the upload with an empty response. *)
Lemma response_without_status_witness :
  out (await (deploy_contract Mock.deployer) Mock.no_status)
  = Raise (key_error "successful").
Proof.
  eapply (response_without_status Mock.deployer Mock.no_status 1);
    reflexivity.
Defined.

(** X10 on a world whose upload response has no hash. *)
Lemma upload_without_hash_witness :
  out (await (deploy_contract Mock.deployer) Mock.upload_no_hash)
  = Raise (key_error "hash").
Proof.
  eapply (upload_response_without_hash Mock.deployer Mock.upload_no_hash
            _ _ _ Mock.init_ok [] (VBool true));
    reflexivity.
Defined.

(** X11 on a world whose instantiation response has no address. *)
Lemma create_without_address_witness :
  out (await (deploy_contract Mock.deployer) Mock.create_no_address)
  = Raise (key_error "contract_address").
Proof.
  eapply (create_response_without_address Mock.deployer
            Mock.create_no_address _ _ _ _ _ Mock.init_ok [] (VBool true));
    reflexivity.
Defined.

(** X12 on a world whose upload response has the hash [xyz]. *)
Lemma undecodable_hash_witness :
  returned (out (await (deploy_contract Mock.deployer)
                   Mock.upload_bad_hash)) = false.
Proof.
  edestruct (undecodable_hash Mock.deployer Mock.upload_bad_hash)
    as (u & a & o & Hr & Hout);
    [reflexivity | reflexivity | reflexivity | reflexivity | reflexivity |].
  injection Hr as <- <- <-. by rewrite Hout.
Defined.

(** X14 on a world whose server times out on the initialization. *)
Lemma initialization_error_twice_witness :
  exists pre,
    printed (events (await (deploy_contract Mock.deployer) Mock.init_raises))
    = pre ++ [Lit "❌ Initialization failed: " :: exc_str Mock.timeout;
              Lit "❌ Deployment failed: " :: exc_str Mock.timeout].
Proof.
  eapply (initialization_error_reported_twice Mock.deployer Mock.init_raises
            _ Mock.timeout);
    [right; left; reflexivity | reflexivity | reflexivity].
Defined.



(** X18 on the arguments [python-deploy.py mainnet]. *)
Lemma main_unsupported_network_witness :
  exit_status (out (@main Mock.sdk ["python-deploy.py"; "mainnet"]
                      Mock.happy)) = 1%Z.
Proof.
  apply (@main_unsupported_network Mock.sdk ["python-deploy.py"; "mainnet"]
           Mock.happy);
    discriminate.
Defined.

(** X21 on a world where every call succeeds: the hash [00ff]. *)
Lemma hex_hash_witness :
  exists t2,
    net_calls (events (await (deploy_contract Mock.deployer) Mock.happy))
    !! 3 = Some (SubmitTransaction "https://horizon-testnet.stellar.org" t2
                   (Return Mock.create_ok))
    /\ tx_operations t2 = [CreateContract [Byte.x00; Byte.xff] "GADMIN"].
Proof.
  eexists. split; [reflexivity|].
  eapply (hex_hash_reaches_instantiation Mock.deployer Mock.happy
            _ _ _ _ _ _ _ _ _ [Byte.x00; Byte.xff]);
    reflexivity.
Defined.

(** X13 on a world whose server rejects the upload. *)
Lemma failure_is_reported_witness :
  last (printed (events (await (deploy_contract Mock.deployer)
                           Mock.upload_rejected)))
  = Some [Lit "❌ Deployment failed: "; Lit "Upload failed: ";
          FmtDict Mock.failed].
Proof.
  exact (failure_is_reported Mock.deployer Mock.upload_rejected eq_refl).
Defined.
